(** * NYC taxi pipeline: Bronze build and Silver split

    A shallow embedding of [scripts/common.py], [scripts/bronze_build.py]
    and [scripts/silver_split.py], and the properties of the Bronze
    derivations, the per-file deduplication and the Silver partitions.

    Conventions.
    - A cell of a column is nullable: [option A], [None] being null.
    - Boolean expressions follow the three-valued (Kleene) logic of the
      query engine; [filter] keeps the rows whose mask is [Some true].
    - [Float64] is the primitive binary64 type; comparisons follow the
      engine's total order (NaN equal to itself and above every number).
    - [Datetime("us")] and the integer dtypes are [Z]; the [Int64] difference
      of two timestamps wraps around.
    - What the engine does per value and the repository does not define
      (lenient casts between dtypes, timestamp parsing, the seeded row hash)
      is a field of the [Engine] class. *)

From Stdlib Require Import ZArith Ascii PrimFloat Uint63 Lia.
From stdpp Require Import base option list strings gmap sorting pretty.

Open Scope Z_scope.

(** ** Exceptions and results *)

Inductive exn :=
  | ValueError
  | OverflowError
  | FileNotFoundError
  | ColumnNotFoundError (c : string)
  | DuplicateError
  | SystemExit (missing extra : list string).

Inductive result (A : Type) :=
  | Ok (a : A)
  | Raise (e : exn).
Arguments Ok {A} a.
Arguments Raise {A} e.

#[global] Instance result_ret : MRet result := @Ok.
#[global] Instance result_bind : MBind result := fun A B f m =>
  match m with
  | Ok a => f a
  | Raise e => Raise e
  end.

(** ** Three-valued logic of boolean expressions *)

Module Kleene.

Definition or (a b : option bool) : option bool :=
  match a, b with
  | Some true, _ | _, Some true => Some true
  | Some false, Some false => Some false
  | _, _ => None
  end.

Definition and (a b : option bool) : option bool :=
  match a, b with
  | Some false, _ | _, Some false => Some false
  | Some true, Some true => Some true
  | _, _ => None
  end.

Definition not (a : option bool) : option bool := negb <$> a.

(** [expr.is_null()] is never null itself. *)
Definition is_null {A} (c : option A) : option bool :=
  Some (match c with Some _ => false | None => true end).

(** [expr.fill_null(d)] *)
Definition fill_null {A} (d : A) (c : option A) : option A :=
  Some (default d c).

(** [pl.when(c).then(a).otherwise(None)] *)
Definition when_then {A} (c : option bool) (a : option A) : option A :=
  match c with
  | Some true => a
  | _ => None
  end.

End Kleene.

Declare Scope kleene_scope.
Delimit Scope kleene_scope with K.
Infix "||?" := Kleene.or (at level 50, left associativity) : kleene_scope.
Infix "&&?" := Kleene.and (at level 40, left associativity) : kleene_scope.
Notation "~? a" := (Kleene.not a) (at level 35, right associativity) : kleene_scope.

(** ** Float64 and Int64 *)

Module F64.

(** The engine's total order: [tot_ge a b = is_nan a || a >= b],
    [tot_lt a b = !tot_ge a b], [tot_gt a b = tot_lt b a],
    [tot_le a b = tot_ge b a]. *)
Definition ge (a b : float) : bool := PrimFloat.is_nan a || PrimFloat.leb b a.
Definition lt (a b : float) : bool := negb (ge a b).
Definition gt (a b : float) : bool := lt b a.
Definition le (a b : float) : bool := ge b a.

Definition lift2 (f : float -> float -> float) (a b : option float) : option float :=
  x ← a; y ← b; Some (f x y).

Definition add := lift2 PrimFloat.add.
Definition sub := lift2 PrimFloat.sub.
Definition mul := lift2 PrimFloat.mul.
Definition div := lift2 PrimFloat.div.
Definition abs (a : option float) : option float := PrimFloat.abs <$> a.

(** A column compared with a literal: null stays null. *)
Definition lt_lit (a : option float) (k : float) : option bool := (fun x => lt x k) <$> a.
Definition gt_lit (a : option float) (k : float) : option bool := (fun x => gt x k) <$> a.
Definition le_lit (a : option float) (k : float) : option bool := (fun x => le x k) <$> a.

End F64.

Module I64.

Definition wrap (z : Z) : Z := (z + 2 ^ 63) mod 2 ^ 64 - 2 ^ 63.

Definition sub (a b : option Z) : option Z :=
  x ← a; y ← b; Some (wrap (x - y)).

Definition nat_to_f64 (n : Z) : float :=
  if n =? 2 ^ 63 then 9223372036854775808%float
  else PrimFloat.of_uint63 (Uint63.of_Z n).

(** Conversion of an [Int64] to [Float64] (round to nearest). *)
Definition to_f64 (z : Z) : float :=
  if z <? 0 then PrimFloat.opp (nat_to_f64 (- z)) else nat_to_f64 z.

(** True division of an [Int64] column by an integer literal. *)
Definition truediv_lit (a : option Z) (k : Z) : option float :=
  (fun x => PrimFloat.div (to_f64 x) (to_f64 k)) <$> a.

Definition is_between (a : option Z) (lo hi : Z) : option bool :=
  (fun x => (lo <=? x) && (x <=? hi)) <$> a.

Definition le_lit (a : option Z) (k : Z) : option bool := (fun x => x <=? k) <$> a.

Definition is_in (a : option Z) (ks : list Z) : option bool :=
  (fun x => bool_decide (x ∈ ks)) <$> a.

End I64.

(** ** Calendar: [datetime(y, m, 1)] and [timedelta(days=n)]

    A [datetime] at midnight is its proleptic Gregorian ordinal
    (0001-01-01 is day 1), as [datetime.toordinal] gives it. *)

Module Calendar.

Definition MINYEAR : Z := 1.
Definition MAXYEAR : Z := 9999.
Definition MAXORDINAL : Z := 3652059.
Definition EPOCH_ORDINAL : Z := 719163.
Definition US_PER_DAY : Z := 86400000000.

Definition is_leap (y : Z) : bool :=
  (y mod 4 =? 0) && (negb (y mod 100 =? 0) || (y mod 400 =? 0)).

Definition days_before_year (y : Z) : Z :=
  let p := y - 1 in p * 365 + p / 4 - p / 100 + p / 400.

Definition DAYS_BEFORE_MONTH : list Z :=
  [0; 31; 59; 90; 120; 151; 181; 212; 243; 273; 304; 334].

Definition days_before_month (y m : Z) : Z :=
  nth (Z.to_nat (m - 1)) DAYS_BEFORE_MONTH 0
  + (if (2 <? m) && is_leap y then 1 else 0).

(** [datetime(y, m, 1)]: [ValueError] outside the supported range. *)
Definition first_of_month (y m : Z) : result Z :=
  if (MINYEAR <=? y) && (y <=? MAXYEAR) && (1 <=? m) && (m <=? 12)
  then Ok (days_before_year y + days_before_month y m + 1)
  else Raise ValueError.

(** [d + timedelta(days=n)]: [OverflowError] outside the supported range. *)
Definition add_days (d n : Z) : result Z :=
  if (1 <=? d + n) && (d + n <=? MAXORDINAL) then Ok (d + n) else Raise OverflowError.

(** A naive [datetime] at midnight as a [Datetime("us")] literal. *)
Definition to_us (d : Z) : Z := (d - EPOCH_ORDINAL) * US_PER_DAY.

End Calendar.

(** ** bronze_build.py: helpers *)

(** [file_window(year, month)] *)
Definition file_window (year month : Z) : result (Z * Z) :=
  start ← Calendar.first_of_month year month;
  next_start ← (if month =? 12 then Calendar.first_of_month (year + 1) 1
                else Calendar.first_of_month year (month + 1));
  lo ← Calendar.add_days start (-2);
  hi ← Calendar.add_days next_start 2;
  Ok (lo, hi).

(** The frame once [build_bronze] has enforced the base dtypes: one record
    per row, every cell of the contract dtype or null. *)
Record Row := {
  vendor_id : option Z;
  pickup_at : option Z;
  dropoff_at : option Z;
  passenger_count : option Z;
  trip_distance_mi : option float;
  rate_code_id : option Z;
  store_and_fwd_flag : option string;
  pu_location_id : option Z;
  do_location_id : option Z;
  payment_type : option Z;
  fare_amount : option float;
  extra : option float;
  mta_tax : option float;
  tip_amount : option float;
  tolls_amount : option float;
  improvement_surcharge : option float;
  total_amount : option float;
  congestion_surcharge : option float;
  airport_fee : option float;
  cbd_congestion_fee : option float;
  source_file : string
}.

(** The columns [compute_derivations_and_flags] adds. *)
Record Derived := {
  manualTotal : option float;
  duration_min : option float;
  speed_mph : option float;
  qa_in_file_window : option bool;
  qa_outlier_distance : option bool;
  qa_outlier_speed : option bool;
  qa_is_fare_mismatch : option bool;
  qa_is_adjustment : option bool
}.

Section derive.
Import Kleene.
Local Open Scope kleene_scope.

(** One row of [compute_derivations_and_flags], the window given as
    [Datetime("us")] literals. *)
Definition derive (win_lo win_hi : Z) (r : Row) : Derived :=
  (* duration (min) and speed (mph) *)
  let duration_min := I64.truediv_lit (I64.sub (dropoff_at r) (pickup_at r)) 60000000 in
  let speed_mph :=
    when_then (F64.gt_lit duration_min 0)
      (F64.div (F64.mul (Some 60%float) (trip_distance_mi r)) duration_min) in
  (* arithmetic components total *)
  let z := 0%float in
  let manualTotal :=
    F64.add (F64.add (F64.add (F64.add (F64.add (F64.add (F64.add (F64.add
      (fill_null z (fare_amount r))
      (fill_null z (extra r)))
      (fill_null z (mta_tax r)))
      (fill_null z (tolls_amount r)))
      (fill_null z (improvement_surcharge r)))
      (fill_null z (congestion_surcharge r)))
      (fill_null z (airport_fee r)))
      (fill_null z (cbd_congestion_fee r)))
      (fill_null z (tip_amount r)) in
  (* QA flags *)
  let in_file_window :=
    I64.is_between (pickup_at r) win_lo win_hi
    &&? I64.is_between (dropoff_at r) win_lo win_hi in
  let outlier_distance :=
    ~? (F64.gt_lit (trip_distance_mi r) 0 &&? F64.le_lit (trip_distance_mi r) 150) in
  let outlier_speed :=
    F64.lt_lit duration_min 1 ||? F64.gt_lit duration_min 360 ||? F64.gt_lit speed_mph 80 in
  let is_fare_mismatch :=
    F64.gt_lit (F64.abs (F64.sub manualTotal (total_amount r))) 0.5 in
  let is_adjustment :=
    F64.lt_lit (total_amount r) 0
    ||? F64.lt_lit (fare_amount r) 0
    ||? F64.lt_lit (extra r) 0
    ||? F64.lt_lit (mta_tax r) 0
    ||? F64.lt_lit (tolls_amount r) 0
    ||? F64.lt_lit (improvement_surcharge r) 0
    ||? F64.lt_lit (congestion_surcharge r) 0
    ||? F64.lt_lit (airport_fee r) 0
    ||? F64.lt_lit (cbd_congestion_fee r) 0
    ||? I64.is_in (payment_type r) [3; 4; 6] in
  {| manualTotal := manualTotal;
     duration_min := duration_min;
     speed_mph := speed_mph;
     qa_in_file_window := fill_null false in_file_window;
     qa_outlier_distance := fill_null false outlier_distance;
     qa_outlier_speed := fill_null false outlier_speed;
     qa_is_fare_mismatch := fill_null false is_fare_mismatch;
     qa_is_adjustment := fill_null false is_adjustment |}.

(** [compute_derivations_and_flags(df, yr, mo)] *)
Definition compute_derivations_and_flags
    (df : list Row) (yr mo : Z) : result (list (Row * Derived)) :=
  '(win_lo, win_hi) ← file_window yr mo;
  Ok ((fun r => (r, derive (Calendar.to_us win_lo) (Calendar.to_us win_hi) r)) <$> df).

End derive.

Example file_window_2024_01 :
  file_window 2024 1 = Ok (738884, 738919)
  /\ Calendar.to_us 738884 = 1703894400000000
  /\ Calendar.to_us 738919 = 1706918400000000.
Proof. repeat split; reflexivity. Qed.

(** ** Properties of the derivations *)

Section derive_facts.
Local Open Scope kleene_scope.

Lemma kleene_or_true a b :
  (a ||? b) = Some true <-> a = Some true \/ b = Some true.
Proof. destruct a as [[]|], b as [[]|]; simpl; intuition congruence. Qed.

Lemma kleene_and_true a b :
  (a &&? b) = Some true <-> a = Some true /\ b = Some true.
Proof. destruct a as [[]|], b as [[]|]; simpl; intuition congruence. Qed.

Lemma fill_null_false_true (c : option bool) :
  Kleene.fill_null false c = Some true <-> c = Some true.
Proof. destruct c as [[]|]; unfold Kleene.fill_null; simpl; intuition congruence. Qed.

Lemma fill_null_is_Some {A} (d : A) (c : option A) :
  exists v, Kleene.fill_null d c = Some v.
Proof. eexists; reflexivity. Qed.

Lemma F64_gt_le_zero (u : float) : F64.gt u 0 = negb (F64.le u 0).
Proof. reflexivity. Qed.

Lemma bind_Ok {A B} (m : result A) (f : A -> result B) b :
  m ≫= f = Ok b -> exists a, m = Ok a /\ f a = Ok b.
Proof. destruct m; [eauto|discriminate]. Qed.

Lemma add_days_Ok d n d' : Calendar.add_days d n = Ok d' -> d' = d + n.
Proof. unfold Calendar.add_days. destruct (_ && _); congruence. Qed.

Lemma file_window_Ok yr mo lo hi :
  file_window yr mo = Ok (lo, hi) ->
  exists start next_start,
    Calendar.first_of_month yr mo = Ok start
    /\ (if mo =? 12 then Calendar.first_of_month (yr + 1) 1
        else Calendar.first_of_month yr (mo + 1)) = Ok next_start
    /\ lo = start - 2 /\ hi = next_start + 2.
Proof.
  unfold file_window.
  intros (start & Hs & (next_start & Hn & (lo' & Hlo & (hi' & Hhi & [= <- <-])
    %bind_Ok)%bind_Ok)%bind_Ok)%bind_Ok.
  apply add_days_Ok in Hlo, Hhi. exists start, next_start.
  repeat split; [assumption..|lia|lia].
Qed.

Lemma compute_derivations_and_flags_Ok df yr mo out :
  compute_derivations_and_flags df yr mo = Ok out ->
  exists lo hi, file_window yr mo = Ok (lo, hi)
    /\ out = (fun r => (r, derive (Calendar.to_us lo) (Calendar.to_us hi) r)) <$> df.
Proof.
  unfold compute_derivations_and_flags.
  destruct (file_window yr mo) as [[lo hi]|e]; simpl; [|discriminate].
  intros [= <-]. eauto.
Qed.

(** Every QA flag is a boolean once derived: never null. *)
Lemma derive_flags_not_null lo hi r :
  let d := derive lo hi r in
  is_Some (qa_in_file_window d) /\ is_Some (qa_outlier_distance d)
  /\ is_Some (qa_outlier_speed d) /\ is_Some (qa_is_fare_mismatch d)
  /\ is_Some (qa_is_adjustment d).
Proof. simpl. repeat split; eexists; reflexivity. Qed.

Lemma I64_wrap_small z : - 2 ^ 63 <= z < 2 ^ 63 -> I64.wrap z = z.
Proof. intros Hz. unfold I64.wrap. rewrite Z.mod_small; lia. Qed.

Lemma I64_is_between_true c lo hi :
  I64.is_between c lo hi = Some true <-> exists x, c = Some x /\ lo <= x <= hi.
Proof.
  destruct c as [x|]; simpl.
  - split.
    + intros [= H]. apply andb_true_iff in H as [?%Z.leb_le ?%Z.leb_le]. eauto.
    + intros (y & [= <-] & ? & ?). f_equal.
      apply andb_true_iff. split; apply Z.leb_le; lia.
  - split; [discriminate|]. intros (? & ? & _). discriminate.
Qed.

End derive_facts.

(** C5: [duration_min] is the signed [Int64] difference dropoff minus pickup,
    in minutes, and null when either timestamp is null; [speed_mph] is
    [60 * trip_distance_mi / duration_min] when [duration_min > 0] and null
    when [duration_min <= 0] or [duration_min] is null. *)
Theorem C5_duration_and_speed (lo hi : Z) (r : Row) :
  let d := derive lo hi r in
  (duration_min d =
     match pickup_at r, dropoff_at r with
     | Some p, Some q => Some (I64.to_f64 (I64.wrap (q - p)) / 60000000)%float
     | _, _ => None
     end)
  /\ (forall p q, pickup_at r = Some p -> dropoff_at r = Some q ->
        - 2 ^ 63 <= q - p < 2 ^ 63 ->
        duration_min d = Some (I64.to_f64 (q - p) / 60000000)%float)
  /\ (forall u, duration_min d = Some u -> F64.gt u 0 = true ->
        speed_mph d = F64.div (F64.mul (Some 60%float) (trip_distance_mi r)) (Some u))
  /\ (forall u, duration_min d = Some u -> F64.le u 0 = true -> speed_mph d = None)
  /\ (duration_min d = None -> speed_mph d = None).
Proof.
  cbn zeta. unfold derive; cbn [duration_min speed_mph].
  assert (Hd : I64.truediv_lit (I64.sub (dropoff_at r) (pickup_at r)) 60000000 =
     match pickup_at r, dropoff_at r with
     | Some p, Some q => Some (I64.to_f64 (I64.wrap (q - p)) / 60000000)%float
     | _, _ => None
     end).
  { destruct (pickup_at r), (dropoff_at r); reflexivity. }
  rewrite Hd. clear Hd. repeat split.
  - intros p q -> -> Hr. rewrite I64_wrap_small by exact Hr. reflexivity.
  - intros u -> Hu. cbn. unfold F64.gt_lit; cbn. rewrite Hu. reflexivity.
  - intros u -> Hu. unfold F64.gt_lit; cbn.
    rewrite F64_gt_le_zero, Hu. reflexivity.
  - intros ->. reflexivity.
Qed.

Definition row0 : Row :=
  {| vendor_id := Some 1; pickup_at := Some 1704103200000000;
     dropoff_at := Some 1704103290000000; passenger_count := Some 1;
     trip_distance_mi := Some 1%float; rate_code_id := Some 1;
     store_and_fwd_flag := Some "N"; pu_location_id := Some 132;
     do_location_id := Some 48; payment_type := Some 1;
     fare_amount := Some 10%float; extra := Some 0%float; mta_tax := Some 0.5%float;
     tip_amount := Some 2%float; tolls_amount := Some 0%float;
     improvement_surcharge := Some 1%float; total_amount := Some 13.5%float;
     congestion_surcharge := Some 0%float; airport_fee := Some 0%float;
     cbd_congestion_fee := Some 0%float;
     source_file := "yellow_tripdata_2024-01.parquet" |}.

(** A 90 second, one mile trip: 1.5 minutes and 40 mph. *)
Lemma C5_duration_and_speed_witness :
  duration_min (derive 0 0 row0) = Some 1.5%float
  /\ speed_mph (derive 0 0 row0) = Some 40%float.
Proof.
  pose proof (C5_duration_and_speed 0 0 row0) as (_ & Hdur & Hspeed & _).
  split.
  - exact (Hdur 1704103200000000 1704103290000000 eq_refl eq_refl ltac:(simpl; lia)).
  - exact (Hspeed 1.5%float eq_refl eq_refl).
Defined.

(** C7: [manualTotal] is the sum of the nine monetary components, each null
    taken as zero, so it is never null and is zero when all nine are null;
    [qa_is_fare_mismatch] is true exactly when [total_amount] is present and
    [|manualTotal - total_amount| > 0.50], the tolerance being the literal
    0.50 for every call. *)
Theorem C7_fare_mismatch (lo hi : Z) (r : Row) :
  let d := derive lo hi r in
  let m := (default 0 (fare_amount r) + default 0 (extra r) + default 0 (mta_tax r)
            + default 0 (tolls_amount r) + default 0 (improvement_surcharge r)
            + default 0 (congestion_surcharge r) + default 0 (airport_fee r)
            + default 0 (cbd_congestion_fee r) + default 0 (tip_amount r))%float in
  manualTotal d = Some m
  /\ (qa_is_fare_mismatch d = Some true <->
      exists t, total_amount r = Some t /\ F64.gt (PrimFloat.abs (m - t)) 0.5 = true)
  /\ (fare_amount r = None -> extra r = None -> mta_tax r = None ->
      tolls_amount r = None -> improvement_surcharge r = None ->
      congestion_surcharge r = None -> airport_fee r = None ->
      cbd_congestion_fee r = None -> tip_amount r = None ->
      manualTotal d = Some 0%float).
Proof.
  cbn zeta. split; [reflexivity|]. split.
  - unfold derive; cbn [qa_is_fare_mismatch]. rewrite fill_null_false_true.
    unfold Kleene.fill_null. cbn.
    destruct (total_amount r) as [t|]; cbn.
    + split.
      * intros [= H]. exists t. split; [reflexivity|exact H].
      * intros (t' & [= <-] & H). rewrite H. reflexivity.
    + split; [discriminate|]. intros (t & [=] & _).
  - intros H1 H2 H3 H4 H5 H6 H7 H8 H9. unfold derive; cbn [manualTotal].
    rewrite H1, H2, H3, H4, H5, H6, H7, H8, H9. reflexivity.
Qed.

Definition all_null_row : Row :=
  {| vendor_id := None; pickup_at := None; dropoff_at := None; passenger_count := None;
     trip_distance_mi := None; rate_code_id := None; store_and_fwd_flag := None;
     pu_location_id := None; do_location_id := None; payment_type := None;
     fare_amount := None; extra := None; mta_tax := None; tip_amount := None;
     tolls_amount := None; improvement_surcharge := None; total_amount := None;
     congestion_surcharge := None; airport_fee := None; cbd_congestion_fee := None;
     source_file := "yellow_tripdata_2024-01.parquet" |}.

Lemma C7_fare_mismatch_witness :
  manualTotal (derive 0 0 all_null_row) = Some 0%float.
Proof.
  pose proof (C7_fare_mismatch 0 0 all_null_row) as (_ & _ & H).
  exact (H eq_refl eq_refl eq_refl eq_refl eq_refl eq_refl eq_refl eq_refl eq_refl).
Defined.

(** The components of [row0] add up to its total; a total off by $1.25 is
    a mismatch, one off by $0.50 exactly is not. *)
Example fare_mismatch_examples :
  let with_total t := qa_is_fare_mismatch (derive 0 0
    {| vendor_id := Some 1; pickup_at := None; dropoff_at := None; passenger_count := None;
       trip_distance_mi := None; rate_code_id := None; store_and_fwd_flag := None;
       pu_location_id := None; do_location_id := None; payment_type := Some 1;
       fare_amount := Some 10%float; extra := None; mta_tax := Some 0.5%float;
       tip_amount := Some 2%float; tolls_amount := None;
       improvement_surcharge := Some 1%float; total_amount := t;
       congestion_surcharge := None; airport_fee := None; cbd_congestion_fee := None;
       source_file := "" |}) in
  with_total (Some 13.5%float) = Some false
  /\ with_total (Some 14.75%float) = Some true
  /\ with_total (Some 14%float) = Some false
  /\ with_total None = Some false.
Proof. repeat split; reflexivity. Qed.

(** C6: with the window of the file's year and month, [qa_in_file_window] is
    true exactly when pickup and dropoff both lie in the closed interval from
    the first of the month minus 2 days to the first of the next month plus
    2 days; a pickup exactly 2 days before the first of the month is inside,
    one 3 days before is outside. *)
Theorem C6_in_file_window (df : list Row) (yr mo : Z) (out : list (Row * Derived)) :
  compute_derivations_and_flags df yr mo = Ok out ->
  exists start next_start,
    Calendar.first_of_month yr mo = Ok start
    /\ (if mo =? 12 then Calendar.first_of_month (yr + 1) 1
        else Calendar.first_of_month yr (mo + 1)) = Ok next_start
    /\ let win_lo := Calendar.to_us start - 2 * Calendar.US_PER_DAY in
       let win_hi := Calendar.to_us next_start + 2 * Calendar.US_PER_DAY in
       forall r d, (r, d) ∈ out ->
         (qa_in_file_window d = Some true <->
            exists p q, pickup_at r = Some p /\ dropoff_at r = Some q
                        /\ win_lo <= p <= win_hi /\ win_lo <= q <= win_hi)
         /\ (pickup_at r = Some win_lo ->
             (exists q, dropoff_at r = Some q /\ win_lo <= q <= win_hi) ->
             qa_in_file_window d = Some true)
         /\ (pickup_at r = Some (Calendar.to_us start - 3 * Calendar.US_PER_DAY) ->
             qa_in_file_window d = Some false).
Proof.
  intros (lo & hi & Hw & ->)%compute_derivations_and_flags_Ok.
  apply file_window_Ok in Hw as (start & next_start & Hs & Hn & -> & ->).
  exists start, next_start. split; [exact Hs|]. split; [exact Hn|].
  cbn zeta. intros r d [r' [[= -> ->] _]]%list_elem_of_fmap.
  assert (Hlo : Calendar.to_us (start - 2)
                = Calendar.to_us start - 2 * Calendar.US_PER_DAY)
    by (unfold Calendar.to_us; lia).
  assert (Hhi : Calendar.to_us (next_start + 2)
                = Calendar.to_us next_start + 2 * Calendar.US_PER_DAY)
    by (unfold Calendar.to_us; lia).
  rewrite Hlo, Hhi.
  set (win_lo := Calendar.to_us start - 2 * Calendar.US_PER_DAY).
  set (win_hi := Calendar.to_us next_start + 2 * Calendar.US_PER_DAY).
  assert (Hiff : qa_in_file_window (derive win_lo win_hi r') = Some true <->
            exists p q, pickup_at r' = Some p /\ dropoff_at r' = Some q
                        /\ win_lo <= p <= win_hi /\ win_lo <= q <= win_hi).
  { unfold derive; cbn [qa_in_file_window].
    rewrite fill_null_false_true, kleene_and_true, !I64_is_between_true.
    split.
    - intros [(p & Hp & ?) (q & Hq & ?)]. exists p, q. auto.
    - intros (p & q & Hp & Hq & ? & ?). split; [exists p|exists q]; auto. }
  split; [exact Hiff|]. split.
  - intros Hp (q & Hq & ?). apply Hiff. exists win_lo, q. repeat split; try assumption; lia.
  - intros Hp.
    destruct (derive_flags_not_null win_lo win_hi r') as ([b Hb] & _).
    cbn zeta in Hb. rewrite Hb. destruct b; [|reflexivity].
    apply Hiff in Hb as (p & q & Hp' & _ & [? ?] & _).
    rewrite Hp in Hp'. injection Hp' as <-.
    subst win_lo. unfold Calendar.US_PER_DAY in *. lia.
Qed.

Definition boundary_row : Row :=
  {| vendor_id := Some 2; pickup_at := Some 1703894400000000;
     dropoff_at := Some 1703895300000000; passenger_count := Some 1;
     trip_distance_mi := Some 3%float; rate_code_id := Some 1;
     store_and_fwd_flag := Some "N"; pu_location_id := Some 132;
     do_location_id := Some 48; payment_type := Some 1;
     fare_amount := Some 10%float; extra := Some 0%float; mta_tax := Some 0.5%float;
     tip_amount := Some 2%float; tolls_amount := Some 0%float;
     improvement_surcharge := Some 1%float; total_amount := Some 13.5%float;
     congestion_surcharge := Some 0%float; airport_fee := Some 0%float;
     cbd_congestion_fee := Some 0%float;
     source_file := "yellow_tripdata_2024-01.parquet" |}.

(** A pickup on 2023-12-30 00:00:00 in the file of 2024-01. *)
Lemma C6_in_file_window_witness :
  exists d, compute_derivations_and_flags [boundary_row] 2024 1 = Ok [(boundary_row, d)]
            /\ qa_in_file_window d = Some true.
Proof.
  eexists. split; [reflexivity|].
  destruct (C6_in_file_window [boundary_row] 2024 1 _ eq_refl)
    as (s & n & Hs & Hn & H).
  injection Hs as <-. injection Hn as <-.
  refine (proj1 (proj2 (H boundary_row _ _)) eq_refl _).
  - constructor.
  - exists 1703895300000000. split; [reflexivity|]. cbv. split; discriminate.
Defined.

(** The same pickup one day earlier (2023-12-29) is outside the window. *)
Example in_file_window_three_days_before :
  let r := {| vendor_id := Some 2; pickup_at := Some 1703808000000000;
     dropoff_at := Some 1703895300000000; passenger_count := Some 1;
     trip_distance_mi := Some 3%float; rate_code_id := Some 1;
     store_and_fwd_flag := Some "N"; pu_location_id := Some 132;
     do_location_id := Some 48; payment_type := Some 1;
     fare_amount := Some 10%float; extra := None; mta_tax := None;
     tip_amount := None; tolls_amount := None;
     improvement_surcharge := None; total_amount := Some 10%float;
     congestion_surcharge := None; airport_fee := None;
     cbd_congestion_fee := None;
     source_file := "yellow_tripdata_2024-01.parquet" |} in
  compute_derivations_and_flags [r] 2024 1
  = Ok [(r, derive 1703894400000000 1706918400000000 r)]
  /\ qa_in_file_window (derive 1703894400000000 1706918400000000 r) = Some false.
Proof. split; reflexivity. Qed.

(** What [qa_is_adjustment] tests: [total_amount], eight of the nine
    monetary components ([tip_amount] is not among them) and the payment
    type. *)
Definition negative (c : option float) : Prop :=
  exists x, c = Some x /\ F64.lt x 0 = true.

Lemma lt_lit_zero_true c : F64.lt_lit c 0 = Some true <-> negative c.
Proof.
  unfold negative. destruct c as [x|]; simpl.
  - split; [intros [= H]; eauto|intros (y & [= <-] & ->); reflexivity].
  - split; [discriminate|intros (? & ? & _); discriminate].
Qed.

Lemma qa_is_adjustment_true lo hi r :
  qa_is_adjustment (derive lo hi r) = Some true <->
    negative (total_amount r) \/ negative (fare_amount r) \/ negative (extra r)
    \/ negative (mta_tax r) \/ negative (tolls_amount r)
    \/ negative (improvement_surcharge r) \/ negative (congestion_surcharge r)
    \/ negative (airport_fee r) \/ negative (cbd_congestion_fee r)
    \/ exists p, payment_type r = Some p /\ p ∈ [3; 4; 6].
Proof.
  unfold derive; cbn [qa_is_adjustment].
  rewrite fill_null_false_true, !kleene_or_true, !lt_lit_zero_true.
  assert (I64.is_in (payment_type r) [3; 4; 6] = Some true <->
          exists p, payment_type r = Some p /\ p ∈ [3; 4; 6]) as ->.
  { destruct (payment_type r) as [p|]; simpl.
    - split.
      + intros [= H%bool_decide_eq_true]. eauto.
      + intros (? & [= <-] & H). f_equal. apply bool_decide_eq_true. exact H.
    - split; [discriminate|intros (? & ? & _); discriminate]. }
  tauto.
Qed.

Definition negative_tip_row : Row :=
  {| vendor_id := Some 1; pickup_at := Some 1704103200000000;
     dropoff_at := Some 1704104100000000; passenger_count := Some 1;
     trip_distance_mi := Some 3%float; rate_code_id := Some 1;
     store_and_fwd_flag := Some "N"; pu_location_id := Some 132;
     do_location_id := Some 48; payment_type := Some 1;
     fare_amount := Some 10%float; extra := Some 0%float; mta_tax := Some 0.5%float;
     tip_amount := Some (-2)%float; tolls_amount := Some 0%float;
     improvement_surcharge := Some 1%float; total_amount := Some 9.5%float;
     congestion_surcharge := Some 0%float; airport_fee := Some 0%float;
     cbd_congestion_fee := Some 0%float;
     source_file := "yellow_tripdata_2024-01.parquet" |}.

(** C3: a row whose [tip_amount] is negative, every other component and the
    total non-negative and the payment type 1 is not flagged
    [qa_is_adjustment], whereas the same negative amount in [extra] is. *)
Theorem C3_negative_tip_not_flagged (lo hi : Z) :
  negative (tip_amount negative_tip_row)
  /\ qa_is_adjustment (derive lo hi negative_tip_row) = Some false
  /\ qa_is_adjustment (derive lo hi
       {| vendor_id := Some 1; pickup_at := Some 1704103200000000;
          dropoff_at := Some 1704104100000000; passenger_count := Some 1;
          trip_distance_mi := Some 3%float; rate_code_id := Some 1;
          store_and_fwd_flag := Some "N"; pu_location_id := Some 132;
          do_location_id := Some 48; payment_type := Some 1;
          fare_amount := Some 10%float; extra := Some (-2)%float;
          mta_tax := Some 0.5%float; tip_amount := Some 0%float;
          tolls_amount := Some 0%float; improvement_surcharge := Some 1%float;
          total_amount := Some 9.5%float; congestion_surcharge := Some 0%float;
          airport_fee := Some 0%float; cbd_congestion_fee := Some 0%float;
          source_file := "yellow_tripdata_2024-01.parquet" |}) = Some true.
Proof.
  split; [|split].
  - exists (-2)%float. split; reflexivity.
  - reflexivity.
  - reflexivity.
Qed.

(** ** Frames as read from Parquet

    A frame has an ordered schema and rows; a row maps a column name to its
    value, a null cell being absent from the map. *)

Inductive TimeUnit := ns | us | ms.

Inductive DType :=
  | Int16 | Int32 | Int64 | Float64 | Utf8 | Boolean | Date
  | Datetime (tu : TimeUnit)
  | Null
  | OtherDType.

Inductive value :=
  | VInt (z : Z)
  | VFloat (f : float)
  | VStr (s : string)
  | VBool (b : bool).

Record DataFrame := {
  schema : list (string * DType);
  rows : list (gmap string value)
}.

#[global] Instance TimeUnit_eq_dec : EqDecision TimeUnit.
Proof. solve_decision. Defined.
#[global] Instance DType_eq_dec : EqDecision DType.
Proof. solve_decision. Defined.

(** What the query engine computes per value. *)
Class Engine := {
  (** [cast(to, strict=False)] of a non-null value of a column of dtype
      [from]; [None] (null) when the value has no representation. *)
  cast_value : DType -> DType -> value -> option value;
  (** [str.strptime(pl.Datetime("us"), strict=False, exact=False)]. *)
  strptime_us : string -> option Z;
  (** The seeded [UInt64] hash of the cells of one row of a struct. *)
  hash_seeded : N -> list (option value) -> N
}.

Definition columns (df : DataFrame) : list string := (schema df).*1.

Definition height (df : DataFrame) : nat := length (rows df).

Definition dtype_of (c : string) (df : DataFrame) : option DType :=
  (fun p : nat * (string * DType) => p.2.2)
    <$> list_find (fun ct : string * DType => ct.1 = c) (schema df).

(** [df.with_columns(e.alias(c))] with [e] of dtype [t]: replaces the column
    when it exists, appends it otherwise. *)
Definition with_column (c : string) (t : DType)
    (e : gmap string value -> option value) (df : DataFrame) : DataFrame :=
  {| schema :=
       if decide (c ∈ columns df)
       then (fun ct => if decide (ct.1 = c) then (c, t) else ct) <$> schema df
       else schema df ++ [(c, t)];
     rows := (fun r => partial_alter (fun _ => e r) c r) <$> rows df |}.

Section engine.
Context `{Engine}.

(** [pl.col(c).cast(t, strict=False)] *)
Definition cast_expr (c : string) (from t : DType) (r : gmap string value) : option value :=
  r !! c ≫= cast_value from t.

Definition cast_column (c : string) (t : DType) (df : DataFrame) : DataFrame :=
  match dtype_of c df with
  | Some from => with_column c t (cast_expr c from t) df
  | None => df
  end.

End engine.

(** [df.rename(mapping)]: [DuplicateError] when two columns get one name. *)
Definition rename (f : string -> string) (df : DataFrame) : result DataFrame :=
  let new := (fun ct : string * DType => (f ct.1, ct.2)) <$> schema df in
  if decide (NoDup new.*1)
  then Ok {| schema := new;
             rows := (fun r : gmap string value =>
                        list_to_map (omap (fun c => (fun v => (f c, v)) <$> r !! c)
                                          (columns df))) <$> rows df |}
  else Raise DuplicateError.

(** ** common.py *)

Module Common.

Definition CANON : gmap string string := list_to_map [
  ("tpep_pickup_datetime", "pickup_at");
  ("tpep_dropoff_datetime", "dropoff_at");
  ("VendorID", "vendor_id");
  ("vendor_id", "vendor_id");
  ("payment_type", "payment_type");
  ("PULocationID", "pu_location_id");
  ("DOLocationID", "do_location_id");
  ("passenger_count", "passenger_count");
  ("trip_distance", "trip_distance");
  ("fare_amount", "fare_amount");
  ("extra", "extra");
  ("mta_tax", "mta_tax");
  ("tip_amount", "tip_amount");
  ("tolls_amount", "tolls_amount");
  ("improvement_surcharge", "improvement_surcharge");
  ("congestion_surcharge", "congestion_surcharge");
  ("airport_fee", "airport_fee");
  ("Airport_fee", "airport_fee");
  ("cbd_congestion_fee", "cbd_congestion_fee");
  ("total_amount", "total_amount");
  ("store_and_fwd_flag", "store_and_fwd_flag");
  ("ratecodeid", "rate_code_id");
  ("RatecodeID", "rate_code_id")
]%string.

Definition MONEY_COLS : list string := [
  "fare_amount"; "extra"; "mta_tax"; "tip_amount"; "tolls_amount";
  "improvement_surcharge"; "congestion_surcharge"; "airport_fee";
  "cbd_congestion_fee"; "total_amount"
]%string.

Section engine.
Context `{Engine}.

(** [_to_datetime_us(df, col)] *)
Definition to_datetime_us (df : DataFrame) (col : string) : DataFrame :=
  match dtype_of col df with
  | None => df
  | Some (Datetime us) => df
  | Some Date => with_column col (Datetime us) (cast_expr col Date (Datetime us)) df
  | Some dtype =>
      with_column col (Datetime us)
        (fun r => s ← cast_expr col dtype Utf8 r;
                  match s with
                  | VStr s => VInt <$> strptime_us s
                  | _ => None
                  end) df
  end.

(** [canonicalize(df)] *)
Definition canonicalize (df : DataFrame) : result DataFrame :=
  (* rename known columns; preserve others *)
  out ← rename (fun c => default c (CANON !! c)) df;
  (* robust datetime handling *)
  let out := to_datetime_us out "pickup_at" in
  let out := to_datetime_us out "dropoff_at" in
  (* cast numerics (lenient) *)
  let out := foldl (fun out c => if decide (c ∈ columns out) then cast_column c Int64 out else out)
                   out ["vendor_id"; "payment_type"; "rate_code_id"; "passenger_count";
                        "pu_location_id"; "do_location_id"]%string in
  let out := foldl (fun out c => if decide (c ∈ columns out) then cast_column c Float64 out else out)
                   out ("trip_distance"%string :: MONEY_COLS) in
  (* ensure present money columns *)
  let out := foldl (fun out c => if decide (c ∈ columns out) then out
                                  else with_column c Float64 (fun _ => None) out)
                   out MONEY_COLS in
  (* assure store_and_fwd_flag is string when present *)
  let out := if decide ("store_and_fwd_flag"%string ∈ columns out)
             then cast_column "store_and_fwd_flag" Utf8 out else out in
  Ok out.

End engine.

End Common.

(** ** bronze_build.py: the contract and the frame helpers *)

Definition CONTRACT_DTYPES : list (string * DType) := [
  ("vendor_id", Int16);
  ("pickup_at", Datetime us);
  ("dropoff_at", Datetime us);
  ("passenger_count", Int16);
  ("trip_distance_mi", Float64);
  ("rate_code_id", Int16);
  ("store_and_fwd_flag", Utf8);
  ("pu_location_id", Int32);
  ("do_location_id", Int32);
  ("payment_type", Int16);
  ("fare_amount", Float64);
  ("extra", Float64);
  ("mta_tax", Float64);
  ("tip_amount", Float64);
  ("tolls_amount", Float64);
  ("improvement_surcharge", Float64);
  ("total_amount", Float64);
  ("congestion_surcharge", Float64);
  ("airport_fee", Float64);
  ("cbd_congestion_fee", Float64);
  ("manualTotal", Float64);
  ("duration_min", Float64);
  ("speed_mph", Float64);
  ("qa_in_file_window", Boolean);
  ("qa_outlier_distance", Boolean);
  ("qa_outlier_speed", Boolean);
  ("qa_is_fare_mismatch", Boolean);
  ("qa_is_adjustment", Boolean);
  ("dup_key", Utf8);
  ("qa_is_duplicate_in_file", Boolean);
  ("source_year", Int32);
  ("source_month", Int32);
  ("source_file", Utf8)
]%string.

Definition CONTRACT_COLS : list string := CONTRACT_DTYPES.*1.

Definition MONEY_COLS : list string := [
  "fare_amount"; "extra"; "mta_tax"; "tip_amount"; "tolls_amount";
  "improvement_surcharge"; "congestion_surcharge"; "airport_fee";
  "cbd_congestion_fee"
]%string.

Definition is_digit (a : ascii) : bool :=
  let n := N_of_ascii a in (48 <=? n)%N && (n <=? 57)%N.

Definition digit (a : ascii) : Z := Z.of_N (N_of_ascii a) - 48.

(** [re.search(r"(\d{4})-(\d{2})", name)]: the leftmost match. *)
Fixpoint search_year_month (name : string) : option (Z * Z) :=
  match name with
  | String y1 tl =>
      match tl with
      | String y2 (String y3 (String y4 (String dash (String m1 (String m2 _))))) =>
          if is_digit y1 && is_digit y2 && is_digit y3 && is_digit y4
             && Ascii.eqb dash "-" && is_digit m1 && is_digit m2
          then Some (digit y1 * 1000 + digit y2 * 100 + digit y3 * 10 + digit y4,
                     digit m1 * 10 + digit m2)
          else search_year_month tl
      | _ => None
      end
  | EmptyString => None
  end.

(** [parse_year_month_from_filename(name)] *)
Definition parse_year_month_from_filename (name : string) : result (Z * Z) :=
  match search_year_month name with
  | Some ym => Ok ym
  | None => Raise ValueError
  end.

(** [ensure_money_columns(df)] *)
Definition ensure_money_columns (df : DataFrame) : DataFrame :=
  foldl (fun out c => if decide (c ∈ columns out) then out
                      else with_column c Float64 (fun _ => Some (VFloat 0)) out)
        df MONEY_COLS.

Example parse_year_month_examples :
  parse_year_month_from_filename "yellow_tripdata_2024-01.parquet" = Ok (2024, 1)
  /\ parse_year_month_from_filename "trips.parquet" = Raise ValueError
  /\ parse_year_month_from_filename "x12345-6789-10.parquet" = Ok (2345, 67).
Proof. repeat split; reflexivity. Qed.

(** The dtypes [build_bronze] enforces on the base columns. *)
Definition BASE_DTYPES : list (string * DType) :=
  [ ("vendor_id", Int16); ("passenger_count", Int16); ("rate_code_id", Int16);
    ("payment_type", Int16); ("pu_location_id", Int32); ("do_location_id", Int32);
    ("pickup_at", Datetime us); ("dropoff_at", Datetime us);
    ("store_and_fwd_flag", Utf8); ("trip_distance_mi", Float64) ]%string
  ++ ((fun c => (c, Float64)) <$> MONEY_COLS ++ ["total_amount"%string]).

Definition as_int (c : option value) : option Z :=
  c ≫= fun v => match v with VInt z => Some z | _ => None end.
Definition as_float (c : option value) : option float :=
  c ≫= fun v => match v with VFloat f => Some f | _ => None end.
Definition as_str (c : option value) : option string :=
  c ≫= fun v => match v with VStr s => Some s | _ => None end.

(** A row of the frame read at the contract dtypes of the base columns. *)
Definition to_row (r : gmap string value) : Row :=
  {| vendor_id := as_int (r !! "vendor_id");
     pickup_at := as_int (r !! "pickup_at");
     dropoff_at := as_int (r !! "dropoff_at");
     passenger_count := as_int (r !! "passenger_count");
     trip_distance_mi := as_float (r !! "trip_distance_mi");
     rate_code_id := as_int (r !! "rate_code_id");
     store_and_fwd_flag := as_str (r !! "store_and_fwd_flag");
     pu_location_id := as_int (r !! "pu_location_id");
     do_location_id := as_int (r !! "do_location_id");
     payment_type := as_int (r !! "payment_type");
     fare_amount := as_float (r !! "fare_amount");
     extra := as_float (r !! "extra");
     mta_tax := as_float (r !! "mta_tax");
     tip_amount := as_float (r !! "tip_amount");
     tolls_amount := as_float (r !! "tolls_amount");
     improvement_surcharge := as_float (r !! "improvement_surcharge");
     total_amount := as_float (r !! "total_amount");
     congestion_surcharge := as_float (r !! "congestion_surcharge");
     airport_fee := as_float (r !! "airport_fee");
     cbd_congestion_fee := as_float (r !! "cbd_congestion_fee");
     source_file := default ""%string (as_str (r !! "source_file")) |}.

(** A row with its derived columns and its [dup_key]. *)
Record Keyed := {
  base : Row;
  derived : Derived;
  dup_key : string
}.

Section engine.
Context `{Engine}.

(** "Enforce required base dtypes": [ColumnNotFoundError] when a base column
    is absent, a lenient cast of each otherwise. *)
Definition enforce_base_dtypes (df : DataFrame) : result (list Row) :=
  match list_find (fun ct : string * DType => ct.1 ∉ columns df) BASE_DTYPES with
  | Some (_, (c, _)) => Raise (ColumnNotFoundError c)
  | None =>
      Ok (to_row <$> rows (foldl (fun out ct => cast_column ct.1 ct.2 out) df BASE_DTYPES))
  end.

(** The cells [build_dup_key] hashes; every key column is present once the
    base dtypes are enforced. *)
Definition key_cols (r : Row) : list (option value) :=
  [ VInt <$> vendor_id r; VInt <$> pickup_at r; VInt <$> dropoff_at r;
    VInt <$> pu_location_id r; VInt <$> do_location_id r;
    VFloat <$> fare_amount r; VFloat <$> trip_distance_mi r ].

(** [build_dup_key(df)]: the seed-42 hash, cast to [Utf8]. *)
Definition build_dup_key (df : list (Row * Derived)) : list Keyed :=
  (fun rd => {| base := rd.1; derived := rd.2;
                dup_key := pretty (hash_seeded 42 (key_cols rd.1)) |}) <$> df.

End engine.

(** *** Sort order of [df.sort([...], nulls_last=True)] *)

Definition lex_le {A B} (RA : relation A) (RB : relation B) : relation (A * B) :=
  fun x y => (RA x.1 y.1 /\ x.1 <> y.1) \/ (x.1 = y.1 /\ RB x.2 y.2).

Definition nulls_last_le (a b : option Z) : Prop :=
  match a, b with
  | _, None => True
  | None, Some _ => False
  | Some x, Some y => x <= y
  end.

Definition sort_key (k : Keyed) : string * (option Z * (option Z * string)) :=
  (dup_key k, (pickup_at (base k), (dropoff_at (base k), source_file (base k)))).

Definition sort_le (a b : Keyed) : Prop :=
  lex_le String.le (lex_le nulls_last_le (lex_le nulls_last_le String.le))
         (sort_key a) (sort_key b).

#[global] Instance lex_le_dec {A B} (RA : relation A) (RB : relation B)
  `{!EqDecision A, !RelDecision RA, !RelDecision RB} : RelDecision (lex_le RA RB).
Proof. intros x y. unfold lex_le. apply _. Defined.

#[global] Instance nulls_last_le_dec : RelDecision nulls_last_le.
Proof. intros [x|] [y|]; simpl; apply _. Defined.

#[global] Instance sort_le_dec : RelDecision sort_le.
Proof. intros a b. unfold sort_le. apply _. Defined.

(** [pl.col(c).is_duplicated()]: true on every row whose value occurs more
    than once in the column. *)
Definition is_duplicated (col : list string) : list bool :=
  (fun k => bool_decide (2 <= length (filter (fun k' => k' = k) col))%nat) <$> col.

(** Sort, mark and filter: the rows kept, each with its (false) flag, and the
    number of rows removed. *)
Definition dedup_in_file (df : list Keyed) : list (Keyed * option bool) * nat :=
  let df := merge_sort sort_le df in
  let df := zip df (Some <$> is_duplicated (dup_key <$> df)) in
  let removed := length (filter (fun kf : Keyed * option bool => kf.2 = Some true) df) in
  let df := filter (fun kf : Keyed * option bool => (~? kf.2)%K = Some true) df in
  (df, removed).

(** *** The contract row *)

Module Contract.

Record row := {
  vendor_id : option Z;
  pickup_at : option Z;
  dropoff_at : option Z;
  passenger_count : option Z;
  trip_distance_mi : option float;
  rate_code_id : option Z;
  store_and_fwd_flag : option string;
  pu_location_id : option Z;
  do_location_id : option Z;
  payment_type : option Z;
  fare_amount : option float;
  extra : option float;
  mta_tax : option float;
  tip_amount : option float;
  tolls_amount : option float;
  improvement_surcharge : option float;
  total_amount : option float;
  congestion_surcharge : option float;
  airport_fee : option float;
  cbd_congestion_fee : option float;
  manualTotal : option float;
  duration_min : option float;
  speed_mph : option float;
  qa_in_file_window : option bool;
  qa_outlier_distance : option bool;
  qa_outlier_speed : option bool;
  qa_is_fare_mismatch : option bool;
  qa_is_adjustment : option bool;
  dup_key : option string;
  qa_is_duplicate_in_file : option bool;
  source_year : option Z;
  source_month : option Z;
  source_file : option string
}.

End Contract.

(** A Parquet artifact: its column names and its rows, read at the contract
    dtypes. *)
Record Parquet := {
  pq_columns : list string;
  pq_rows : list Contract.row
}.

(** Lineage and [cast_and_select_contract(df)], one row: every contract
    column exists by now and has its contract dtype. *)
Definition cast_and_select_contract (yr mo : Z) (kf : Keyed * option bool) : Contract.row :=
  let r := base kf.1 in
  let d := derived kf.1 in
  {| Contract.vendor_id := vendor_id r;
     Contract.pickup_at := pickup_at r;
     Contract.dropoff_at := dropoff_at r;
     Contract.passenger_count := passenger_count r;
     Contract.trip_distance_mi := trip_distance_mi r;
     Contract.rate_code_id := rate_code_id r;
     Contract.store_and_fwd_flag := store_and_fwd_flag r;
     Contract.pu_location_id := pu_location_id r;
     Contract.do_location_id := do_location_id r;
     Contract.payment_type := payment_type r;
     Contract.fare_amount := fare_amount r;
     Contract.extra := extra r;
     Contract.mta_tax := mta_tax r;
     Contract.tip_amount := tip_amount r;
     Contract.tolls_amount := tolls_amount r;
     Contract.improvement_surcharge := improvement_surcharge r;
     Contract.total_amount := total_amount r;
     Contract.congestion_surcharge := congestion_surcharge r;
     Contract.airport_fee := airport_fee r;
     Contract.cbd_congestion_fee := cbd_congestion_fee r;
     Contract.manualTotal := manualTotal d;
     Contract.duration_min := duration_min d;
     Contract.speed_mph := speed_mph d;
     Contract.qa_in_file_window := qa_in_file_window d;
     Contract.qa_outlier_distance := qa_outlier_distance d;
     Contract.qa_outlier_speed := qa_outlier_speed d;
     Contract.qa_is_fare_mismatch := qa_is_fare_mismatch d;
     Contract.qa_is_adjustment := qa_is_adjustment d;
     Contract.dup_key := Some (dup_key kf.1);
     Contract.qa_is_duplicate_in_file := kf.2;
     Contract.source_year := Some yr;
     Contract.source_month := Some mo;
     Contract.source_file := Some (source_file r) |}.

(** ** bronze_build.py: [build_bronze] *)

(** The raw directory in listing order and the Bronze artifact, if any. *)
Record FS := {
  raw_dir : list (string * DataFrame);
  bronze_out : option Parquet
}.

Record Totals := {
  total_in : nat;
  total_written : nat;
  total_dups : nat
}.

Definition ends_with (suffix s : string) : bool :=
  let n := String.length s in
  let m := String.length suffix in
  andb (bool_decide (m <= n)%nat) (String.eqb (String.substring (n - m) m s) suffix).

(** [Path(raw_dir).glob("*.parquet")], in listing order. *)
Definition glob_parquet (dir : list (string * DataFrame)) : list (string * DataFrame) :=
  filter (fun e : string * DataFrame => Is_true (ends_with ".parquet" e.1)) dir.

Definition name_le (a b : string * DataFrame) : Prop := String.le a.1 b.1.

#[global] Instance name_le_dec : RelDecision name_le.
Proof. intros a b. unfold name_le. apply _. Defined.

Section engine.
Context `{Engine}.

(** The body of the loop of [build_bronze] up to the contract table: rows
    read, duplicates removed, table to append. *)
Definition process_file (name : string) (df : DataFrame)
    : result (nat * nat * list Contract.row) :=
  '(yr, mo) ← parse_year_month_from_filename name;
  (* eager read per file, add lineage *)
  let df := with_column "source_file" Utf8 (fun _ => Some (VStr name)) df in
  let n_in := height df in
  (* canonicalize names/dtypes; ensure money cols exist *)
  df ← Common.canonicalize df;
  let df := ensure_money_columns df in
  (* rename to contract distance name *)
  df ← (if decide (("trip_distance_mi"%string ∉ columns df)
                   /\ ("trip_distance"%string ∈ columns df))
        then rename (fun c => if decide (c = "trip_distance"%string)
                              then "trip_distance_mi"%string else c) df
        else Ok df);
  (* enforce required base dtypes *)
  df ← enforce_base_dtypes df;
  (* derivations and QA flags *)
  df ← compute_derivations_and_flags df yr mo;
  (* per-file duplicate marking + dedup *)
  let df := build_dup_key df in
  let '(df, removed) := dedup_in_file df in
  (* lineage; cast/select to exact contract *)
  let table := cast_and_select_contract yr mo <$> df in
  Ok (n_in, removed, table).

(** [writer.write_table(table)], the writer opened on the first table. *)
Definition write_table (writer : option Parquet) (table : list Contract.row) : Parquet :=
  match writer with
  | None => {| pq_columns := CONTRACT_COLS; pq_rows := table |}
  | Some w => {| pq_columns := pq_columns w; pq_rows := pq_rows w ++ table |}
  end.

Fixpoint bronze_loop (files : list (string * DataFrame))
    (writer : option Parquet) (t : Totals) : option Parquet * result Totals :=
  match files with
  | [] => (writer, Ok t)
  | (name, df) :: files =>
      match process_file name df with
      | Raise e => (writer, Raise e)
      | Ok (n_in, removed, table) =>
          bronze_loop files (Some (write_table writer table))
            {| total_in := total_in t + n_in;
               total_written := total_written t + length table;
               total_dups := total_dups t + removed |}
      end
  end.

(** [build_bronze(raw_dir, bronze_out)]: the state after the run and the
    totals it reports, or the exception that aborted it. *)
Definition build_bronze (fs : FS) : FS * result Totals :=
  let files := merge_sort name_le (glob_parquet (raw_dir fs)) in
  match files with
  | [] => (fs, Raise FileNotFoundError)
  | _ =>
      (* overwrite target if exists *)
      let '(out, res) :=
        bronze_loop files None {| total_in := 0; total_written := 0; total_dups := 0 |} in
      ({| raw_dir := raw_dir fs; bronze_out := out |}, res)
  end.

End engine.

(** ** silver_split.py *)

Module Silver.
Import Kleene.
Local Open Scope kleene_scope.

Definition EXPECTED : gset string := list_to_set [
  (* core contract columns *)
  "vendor_id"; "pickup_at"; "dropoff_at"; "passenger_count";
  "trip_distance_mi"; "rate_code_id"; "store_and_fwd_flag";
  "pu_location_id"; "do_location_id"; "payment_type";
  "fare_amount"; "extra"; "mta_tax"; "tip_amount"; "tolls_amount";
  "improvement_surcharge"; "congestion_surcharge"; "airport_fee";
  "cbd_congestion_fee"; "total_amount";
  (* derived from Bronze *)
  "manualTotal"; "duration_min"; "speed_mph";
  (* QA flags from Bronze *)
  "qa_in_file_window"; "qa_outlier_distance"; "qa_outlier_speed";
  "qa_is_fare_mismatch"; "qa_is_adjustment";
  (* dup & lineage *)
  "dup_key"; "qa_is_duplicate_in_file"; "source_year"; "source_month"; "source_file"
]%string.

(** [sorted(s)] of a set of names. *)
Definition sorted (s : gset string) : list string := merge_sort String.le (elements s).

(** The schema check: the sorted missing and extra names, when there are any. *)
Definition schema_mismatch (names : list string) : option (list string * list string) :=
  let names : gset string := list_to_set names in
  let missing := sorted (EXPECTED ∖ names) in
  let extra := sorted (names ∖ EXPECTED) in
  match missing, extra with
  | [], [] => None
  | _, _ => Some (missing, extra)
  end.

(** [pl.col(c).cast(pl.Int32, strict=False)] of an integer cell. *)
Definition cast_int32 (c : option Z) : option Z :=
  c ≫= fun z => if (-2147483648 <=? z) && (z <=? 2147483647) then Some z else None.

(** "Normalize dtypes we depend on, and coalesce all QA flags to strict
    booleans": the other casts are to the dtype the cell already has. *)
Definition normalize (r : Contract.row) : Contract.row :=
  {| Contract.vendor_id := Contract.vendor_id r;
     Contract.pickup_at := Contract.pickup_at r;
     Contract.dropoff_at := Contract.dropoff_at r;
     Contract.passenger_count := Contract.passenger_count r;
     Contract.trip_distance_mi := Contract.trip_distance_mi r;
     Contract.rate_code_id := Contract.rate_code_id r;
     Contract.store_and_fwd_flag := Contract.store_and_fwd_flag r;
     Contract.pu_location_id := cast_int32 (Contract.pu_location_id r);
     Contract.do_location_id := cast_int32 (Contract.do_location_id r);
     Contract.payment_type := Contract.payment_type r;
     Contract.fare_amount := Contract.fare_amount r;
     Contract.extra := Contract.extra r;
     Contract.mta_tax := Contract.mta_tax r;
     Contract.tip_amount := Contract.tip_amount r;
     Contract.tolls_amount := Contract.tolls_amount r;
     Contract.improvement_surcharge := Contract.improvement_surcharge r;
     Contract.total_amount := Contract.total_amount r;
     Contract.congestion_surcharge := Contract.congestion_surcharge r;
     Contract.airport_fee := Contract.airport_fee r;
     Contract.cbd_congestion_fee := Contract.cbd_congestion_fee r;
     Contract.manualTotal := Contract.manualTotal r;
     Contract.duration_min := Contract.duration_min r;
     Contract.speed_mph := Contract.speed_mph r;
     Contract.qa_in_file_window := fill_null false (Contract.qa_in_file_window r);
     Contract.qa_outlier_distance := fill_null false (Contract.qa_outlier_distance r);
     Contract.qa_outlier_speed := fill_null false (Contract.qa_outlier_speed r);
     Contract.qa_is_fare_mismatch := fill_null false (Contract.qa_is_fare_mismatch r);
     Contract.qa_is_adjustment := fill_null false (Contract.qa_is_adjustment r);
     Contract.dup_key := Contract.dup_key r;
     Contract.qa_is_duplicate_in_file := Contract.qa_is_duplicate_in_file r;
     Contract.source_year := Contract.source_year r;
     Contract.source_month := Contract.source_month r;
     Contract.source_file := Contract.source_file r |}.

(** *** Rule flags *)

Definition is_missing_crit (r : Contract.row) : option bool :=
  is_null (Contract.pickup_at r)
  ||? is_null (Contract.dropoff_at r)
  ||? is_null (Contract.trip_distance_mi r)
  ||? is_null (Contract.total_amount r)
  ||? (is_null (Contract.pu_location_id r) ||? I64.le_lit (Contract.pu_location_id r) 0)
  ||? (is_null (Contract.do_location_id r) ||? I64.le_lit (Contract.do_location_id r) 0).

Definition is_admin (r : Contract.row) : option bool := Contract.qa_is_adjustment r.

Definition is_anomaly (r : Contract.row) : option bool :=
  (~? Contract.qa_in_file_window r
   ||? Contract.qa_outlier_distance r
   ||? Contract.qa_outlier_speed r)
  &&? ~? Contract.qa_is_fare_mismatch r.

Definition base_good (r : Contract.row) : option bool :=
  ~? is_missing_crit r &&? ~? is_admin r.

(** [lf.filter(mask)]: the rows whose mask is true. *)
Definition lf_filter (mask : Contract.row -> option bool) (lf : list Contract.row)
    : list Contract.row :=
  filter (fun r => mask r = Some true) lf.

Definition UNWANTED : list string := ["qa_is_fee_misflag"; "fee_misflag_delta"]%string.

(** [drop_unwanted]: the excluded names are no contract column, so that the
    rows keep every cell. *)
Definition drop_unwanted (columns : list string) (lf : list Contract.row) : Parquet :=
  {| pq_columns := filter (fun c => c ∉ UNWANTED) columns; pq_rows := lf |}.

Definition out_rej : string := "silver.rejected.parquet".
Definition out_admin : string := "silver.trips_admin.parquet".
Definition out_anom : string := "silver.trips_anomalies.parquet".
Definition out_clean : string := "silver.trips_clean.parquet".
Definition out_fmiss : string := "silver.trips_fare_miss.parquet".

(** [_write_partition(lf, out_path)]: the streaming sink and its fallback
    write the same artifact. *)
Definition write_partition (part : Parquet) (out_path : string)
    (silver_dir : gmap string Parquet) : gmap string Parquet :=
  <[out_path := part]> silver_dir.

(** [_count_rows(parquet_path)] *)
Definition count_rows (silver_dir : gmap string Parquet) (parquet_path : string) : Z :=
  match silver_dir !! parquet_path with
  | None => 0
  | Some p => Z.of_nat (length (pq_rows p))
  end.

Record Report := {
  total_rows : Z;
  n_rej : Z;
  n_adm : Z;
  n_anom : Z;
  n_clean : Z;
  n_fmiss : Z;
  coverage_warning : bool
}.

(** [split_silver(bronze_file, silver_dir)]: the files of the Silver
    directory after the run and the report printed, or the exception. *)
Definition split_silver (bronze : Parquet) (silver_dir : gmap string Parquet)
    : gmap string Parquet * result Report :=
  (* enforce Bronze contract (column names) *)
  match schema_mismatch (pq_columns bronze) with
  | Some (missing, extra) => (silver_dir, Raise (SystemExit missing extra))
  | None =>
      let lf := normalize <$> pq_rows bronze in
      (* partitions *)
      let lf_rejected := lf_filter is_missing_crit lf in
      let lf_admin := lf_filter (fun r => ~? is_missing_crit r &&? is_admin r) lf in
      let lf_anom := lf_filter (fun r => base_good r &&? is_anomaly r) lf in
      let lf_clean := lf_filter (fun r => base_good r &&? ~? is_anomaly r) lf in
      let lf_fmiss := lf_filter Contract.qa_is_fare_mismatch lf_clean in
      let part := drop_unwanted (pq_columns bronze) in
      (* sink to parquet *)
      let silver_dir := write_partition (part lf_rejected) out_rej silver_dir in
      let silver_dir := write_partition (part lf_admin) out_admin silver_dir in
      let silver_dir := write_partition (part lf_anom) out_anom silver_dir in
      let silver_dir := write_partition (part lf_clean) out_clean silver_dir in
      let silver_dir := write_partition (part lf_fmiss) out_fmiss silver_dir in
      (* report *)
      let total_rows := Z.of_nat (length lf) in
      let n_rej := count_rows silver_dir out_rej in
      let n_adm := count_rows silver_dir out_admin in
      let n_anom := count_rows silver_dir out_anom in
      let n_clean := count_rows silver_dir out_clean in
      let n_fmiss := count_rows silver_dir out_fmiss in
      let base_good_count := total_rows - n_rej - n_adm in
      let covered := n_clean + n_anom in
      (silver_dir,
       Ok {| total_rows := total_rows; n_rej := n_rej; n_adm := n_adm;
             n_anom := n_anom; n_clean := n_clean; n_fmiss := n_fmiss;
             coverage_warning := bool_decide (covered <> base_good_count) |})
  end.

End Silver.

(** ** Properties of the sort orders *)

Section orders.
Context {A B : Type} (RA : relation A) (RB : relation B).

#[global] Instance lex_le_total `{!EqDecision A, !Total RA, !Total RB} :
  Total (lex_le RA RB).
Proof.
  intros x y. unfold lex_le.
  destruct (decide (x.1 = y.1)) as [E|E].
  - destruct (total RB x.2 y.2); [left; right|right; right]; auto.
  - destruct (total RA x.1 y.1); [left; left|right; left]; auto.
Qed.

#[global] Instance lex_le_trans `{!PartialOrder RA, !Transitive RB} :
  Transitive (lex_le RA RB).
Proof.
  intros x y z [[Hxy Exy]|[Exy Hxy]] [[Hyz Eyz]|[Eyz Hyz]]; unfold lex_le.
  - left. split; [by trans y.1|]. intros E. rewrite E in Hxy.
    apply Eyz. by apply (anti_symm RA).
  - left. rewrite <-Eyz. auto.
  - left. rewrite Exy. auto.
  - right. split; [congruence|by trans y.2].
Qed.

Lemma lex_le_fst_antisymm `{!AntiSymm (=) RA} x y :
  lex_le RA RB x y -> lex_le RA RB y x -> x.1 = y.1.
Proof.
  intros [[Hxy Exy]|[Exy _]] [[Hyx Eyx]|[Eyx _]]; auto.
Qed.

End orders.

#[global] Instance nulls_last_le_po : PartialOrder nulls_last_le.
Proof.
  split; [split|].
  - intros [x|]; simpl; [lia|done].
  - intros [x|] [y|] [z|]; simpl; try done; lia.
  - intros [x|] [y|]; simpl; try done. intros. f_equal. lia.
Qed.

#[global] Instance nulls_last_le_total : Total nulls_last_le.
Proof. intros [x|] [y|]; simpl; auto. lia. Qed.

#[global] Instance sort_le_total : Total sort_le.
Proof. intros a b. unfold sort_le. apply total; apply _. Qed.

#[global] Instance sort_le_trans : Transitive sort_le.
Proof. intros a b c. unfold sort_le. apply transitivity. Qed.

Lemma sort_le_dup_key_antisymm a b : sort_le a b -> sort_le b a -> dup_key a = dup_key b.
Proof. unfold sort_le. intros Hab Hba. exact (lex_le_fst_antisymm _ _ _ _ Hab Hba). Qed.

#[global] Instance name_le_total : Total name_le.
Proof. intros a b. unfold name_le. apply total; apply _. Qed.

#[global] Instance name_le_trans : Transitive name_le.
Proof. intros a b c. unfold name_le. apply transitivity. Qed.

(** ** Properties of the per-file deduplication *)

Definition occurrences (col : list string) (k : string) : nat :=
  length (filter (fun k' => k' = k) col).

Lemma zip_fmap_self {A B} (f : A -> B) (l : list A) :
  zip l (f <$> l) = (fun x => (x, f x)) <$> l.
Proof. induction l as [|x l IH]; [done|]. cbn. by f_equal. Qed.

Lemma filter_ext_in {A} (P Q : A -> Prop)
    `{!forall x, Decision (P x), !forall x, Decision (Q x)} (l : list A) :
  (forall x, x ∈ l -> P x <-> Q x) -> filter P l = filter Q l.
Proof.
  induction l as [|x l IH]; intros HPQ; [done|].
  rewrite !filter_cons.
  rewrite IH by (intros y Hy; apply HPQ; by right).
  destruct (decide (P x)) as [HP|HP], (decide (Q x)) as [HQ|HQ]; try done.
  - exfalso. apply HQ, HPQ; [by left|done].
  - exfalso. apply HP, HPQ; [by left|done].
Qed.

Lemma is_duplicated_fmap {A} (key : A -> string) (l : list A) :
  is_duplicated (key <$> l)
  = (fun x => bool_decide (2 <= occurrences (key <$> l) (key x))%nat) <$> l.
Proof. unfold is_duplicated. by rewrite <-list_fmap_compose. Qed.

(** The marked frame: each sorted row with its flag. *)
Lemma dedup_in_file_marked (s : list Keyed) :
  zip s (Some <$> is_duplicated (dup_key <$> s))
  = (fun k => (k, Some (bool_decide (2 <= occurrences (dup_key <$> s) (dup_key k))%nat)))
      <$> s.
Proof. rewrite is_duplicated_fmap, <-list_fmap_compose. apply zip_fmap_self. Qed.

Lemma filter_marked_kept (col : list string) (l : list Keyed) :
  filter (fun kf : Keyed * option bool => (~? kf.2)%K = Some true)
    ((fun k => (k, Some (bool_decide (2 <= occurrences col (dup_key k))%nat))) <$> l)
  = (fun k => (k, Some false))
      <$> filter (fun k => ~ (2 <= occurrences col (dup_key k))%nat) l.
Proof.
  induction l as [|k l IH]; [done|].
  rewrite fmap_cons, !filter_cons, IH. cbn [snd Kleene.not fmap option_fmap option_map].
  destruct (decide (2 <= occurrences col (dup_key k))%nat) as [E|E].
  - rewrite bool_decide_eq_true_2 by done. cbn.
    destruct (decide (Some false = Some true)); [done|].
    by destruct (decide (~ (2 <= occurrences col (dup_key k))%nat)).
  - rewrite bool_decide_eq_false_2 by done. cbn.
    destruct (decide (Some true = Some true)); [|done].
    destruct (decide (~ (2 <= occurrences col (dup_key k))%nat)); [|done].
    by rewrite fmap_cons.
Qed.

Lemma filter_marked_removed (col : list string) (l : list Keyed) :
  length (filter (fun kf : Keyed * option bool => kf.2 = Some true)
    ((fun k => (k, Some (bool_decide (2 <= occurrences col (dup_key k))%nat))) <$> l))
  = length (filter (fun k => (2 <= occurrences col (dup_key k))%nat) l).
Proof.
  induction l as [|k l IH]; [done|].
  rewrite fmap_cons, !filter_cons. cbn [snd].
  destruct (decide (2 <= occurrences col (dup_key k))%nat) as [E|E].
  - rewrite bool_decide_eq_true_2 by done.
    destruct (decide (Some true = Some true)); [|done]. cbn. by rewrite IH.
  - rewrite bool_decide_eq_false_2 by done.
    destruct (decide (Some false = Some true)); [done|]. by rewrite IH.
Qed.

Lemma dedup_in_file_kept_flag (df : list Keyed) (kf : Keyed * option bool) :
  kf ∈ (dedup_in_file df).1 -> kf.2 = Some false.
Proof.
  unfold dedup_in_file; cbn [fst].
  intros [Hk _]%list_elem_of_filter.
  destruct (kf.2) as [[]|]; simpl in Hk; congruence.
Qed.

Lemma occurrences_Permutation (l1 l2 : list string) k :
  l1 ≡ₚ l2 -> occurrences l1 k = occurrences l2 k.
Proof. intros E. unfold occurrences. by rewrite E. Qed.

Lemma occurrences_pos {A} (key : A -> string) (l : list A) x :
  x ∈ l -> (0 < occurrences (key <$> l) (key x))%nat.
Proof.
  intros Hx. unfold occurrences.
  assert (Hin : key x ∈ filter (fun k' => k' = key x) (key <$> l)).
  { apply list_elem_of_filter. split; [done|]. apply list_elem_of_fmap. eauto. }
  destruct (filter _ _); [by apply not_elem_of_nil in Hin|simpl; lia].
Qed.

(** The rows kept are the rows whose key occurs once, in sort order, and the
    rows removed are all the rows whose key occurs twice or more. *)
Lemma dedup_in_file_spec (df : list Keyed) :
  let unique k := occurrences (dup_key <$> df) (dup_key k) = 1%nat in
  (dedup_in_file df).1
    = (fun k => (k, Some false)) <$> filter unique (merge_sort sort_le df)
  /\ (dedup_in_file df).2 = length (filter (fun k => ~ unique k) df)
  /\ (length (dedup_in_file df).1 + (dedup_in_file df).2 = length df)%nat.
Proof.
  cbn zeta. unfold dedup_in_file; cbn [fst snd].
  rewrite dedup_in_file_marked.
  set (s := merge_sort sort_le df).
  assert (Hs : s ≡ₚ df) by apply merge_sort_Permutation.
  assert (Hocc : forall k, k ∈ s ->
            ~ (2 <= occurrences (dup_key <$> s) (dup_key k))%nat
            <-> occurrences (dup_key <$> df) (dup_key k) = 1%nat).
  { intros k Hk. rewrite (occurrences_Permutation _ (dup_key <$> df)) by (by rewrite Hs).
    rewrite Hs in Hk. pose proof (occurrences_pos dup_key df k Hk). lia. }
  rewrite filter_marked_kept, filter_marked_removed.
  rewrite (filter_ext_in _ _ s Hocc).
  assert (Hrem : length (filter (fun k => (2 <= occurrences (dup_key <$> s) (dup_key k))%nat) s)
          = length (filter (fun k => occurrences (dup_key <$> df) (dup_key k) <> 1%nat) df)).
  { rewrite (filter_ext_in _
      (fun k => occurrences (dup_key <$> df) (dup_key k) <> 1%nat) s).
    - by rewrite Hs.
    - intros k Hk. specialize (Hocc k Hk). lia. }
  rewrite Hrem. split; [done|]. split; [done|].
  rewrite length_fmap, Hs.
  pose proof (filter_app_complement
    (fun k => occurrences (dup_key <$> df) (dup_key k) = 1%nat) df) as Hc.
  apply Permutation_length in Hc. rewrite length_app in Hc. exact Hc.
Qed.

(** ** Properties of [build_bronze] *)

Section bronze_facts.
Context `{Engine}.

Lemma process_file_Ok name df n removed table :
  process_file name df = Ok (n, removed, table) ->
  exists yr mo rows keyed,
    parse_year_month_from_filename name = Ok (yr, mo)
    /\ compute_derivations_and_flags rows yr mo = Ok keyed
    /\ removed = (dedup_in_file (build_dup_key keyed)).2
    /\ table = cast_and_select_contract yr mo <$> (dedup_in_file (build_dup_key keyed)).1.
Proof.
  unfold process_file.
  intros ([yr mo] & Hp & (df1 & _ & (df2 & _ & (rows & _ & (keyed & Hk & Hres)
    %bind_Ok)%bind_Ok)%bind_Ok)%bind_Ok)%bind_Ok.
  destruct (dedup_in_file (build_dup_key keyed)) as [kept rem] eqn:Hd.
  injection Hres as _ <- <-.
  exists yr, mo, rows, keyed. by rewrite Hd.
Qed.

Lemma process_file_not_duplicate name df n removed table :
  process_file name df = Ok (n, removed, table) ->
  Forall (fun r => Contract.qa_is_duplicate_in_file r = Some false) table.
Proof.
  intros (yr & mo & rows & keyed & _ & _ & _ & ->)%process_file_Ok.
  apply Forall_fmap, Forall_forall. intros kf Hkf. cbn.
  by apply dedup_in_file_kept_flag in Hkf.
Qed.

(** An invariant of the rows appended by the loop. *)
Lemma bronze_loop_invariant (P : Contract.row -> Prop) files writer t a :
  (forall name df n removed table,
     (name, df) ∈ files -> process_file name df = Ok (n, removed, table) -> Forall P table) ->
  (forall w, writer = Some w -> pq_columns w = CONTRACT_COLS /\ Forall P (pq_rows w)) ->
  (bronze_loop files writer t).1 = Some a ->
  pq_columns a = CONTRACT_COLS /\ Forall P (pq_rows a).
Proof.
  revert writer t. induction files as [|[name df] files IH]; intros writer t Hfiles Hw; cbn.
  - intros ->. by apply Hw.
  - destruct (process_file name df) as [[[n removed] table]|e] eqn:Hp; cbn.
    + apply IH.
      * intros ????? Hin. apply Hfiles. by right.
      * intros w [= <-]. pose proof (Hfiles _ _ _ _ _ ltac:(left) Hp) as Ht.
        destruct writer as [w|]; cbn.
        -- destruct (Hw w eq_refl) as [-> Hr]. split; [done|]. by apply Forall_app.
        -- done.
    + intros ->. by apply Hw.
Qed.

End bronze_facts.

(** C10: every row of an artifact written by a run of [build_bronze] has
    [qa_is_duplicate_in_file] false (and the artifact has the contract
    columns). *)
Theorem C10_written_rows_not_duplicate `{Engine} (fs : FS) (a : Parquet) :
  glob_parquet (raw_dir fs) <> [] ->
  bronze_out (build_bronze fs).1 = Some a ->
  pq_columns a = CONTRACT_COLS
  /\ Forall (fun r => Contract.qa_is_duplicate_in_file r = Some false) (pq_rows a).
Proof.
  intros Hne. unfold build_bronze.
  destruct (merge_sort name_le (glob_parquet (raw_dir fs))) as [|f files] eqn:Hs.
  { exfalso. apply Hne. apply Permutation_nil_r. rewrite <-Hs.
    symmetry. apply merge_sort_Permutation. }
  destruct (bronze_loop (f :: files) None _) as [out res] eqn:Hl. cbn [fst bronze_out].
  intros ->.
  apply (bronze_loop_invariant _ (f :: files) None
           {| total_in := 0; total_written := 0; total_dups := 0 |}).
  - intros name df n removed table _. apply process_file_not_duplicate.
  - discriminate.
  - by rewrite Hl.
Qed.

(** No row of a duplicated key is kept, not even its first occurrence. *)
Lemma dedup_in_file_drops_group (df : list Keyed) (kf : Keyed * option bool) :
  kf ∈ (dedup_in_file df).1 ->
  occurrences (dup_key <$> df) (dup_key kf.1) = 1%nat.
Proof.
  destruct (dedup_in_file_spec df) as (-> & _).
  intros (k & -> & Hk)%list_elem_of_fmap.
  by apply list_elem_of_filter in Hk as [Hk _].
Qed.

(** ** A reference engine and sample files *)

Module Example.

Definition cast (from to : DType) (v : value) : option value :=
  match to, v with
  | Int16, VInt z => if (-32768 <=? z) && (z <=? 32767) then Some v else None
  | Int32, VInt z => if (-2147483648 <=? z) && (z <=? 2147483647) then Some v else None
  | Int64, VInt z => Some v
  | Float64, VFloat _ => Some v
  | Float64, VInt z => Some (VFloat (I64.to_f64 z))
  | Utf8, VStr _ => Some v
  | Datetime us, VInt _ => Some v
  | Boolean, VBool _ => Some v
  | _, _ => None
  end.

Definition code (c : option value) : N :=
  match c with
  | None => 7
  | Some (VInt z) => Z.to_N (z mod 2 ^ 64)
  | Some (VFloat f) =>
      Z.to_N (Uint63.to_Z (PrimFloat.normfr_mantissa (fst (PrimFloat.frshiftexp f))))
  | Some (VStr s) => N.of_nat (String.length s)
  | Some (VBool b) => if b then 1 else 0
  end%N.

(** A polynomial hash of the cells, modulo [2 ^ 64]. *)
Definition hash (seed : N) (cells : list (option value)) : N :=
  foldl (fun h c => ((h * 1000003 + code c) mod 2 ^ 64)%N) seed cells.

#[global] Instance engine : Engine :=
  {| cast_value := cast; strptime_us := fun _ => None; hash_seeded := hash |}.

(** The columns of a 2024 yellow-taxi file; [cbd_congestion_fee] only
    exists from 2025 on. *)
Definition raw_schema : list (string * DType) :=
  [ ("VendorID", Int64); ("tpep_pickup_datetime", Datetime us);
    ("tpep_dropoff_datetime", Datetime us); ("passenger_count", Int64);
    ("trip_distance", Float64); ("RatecodeID", Int64); ("store_and_fwd_flag", Utf8);
    ("PULocationID", Int64); ("DOLocationID", Int64); ("payment_type", Int64);
    ("fare_amount", Float64); ("extra", Float64); ("mta_tax", Float64);
    ("tip_amount", Float64); ("tolls_amount", Float64);
    ("improvement_surcharge", Float64); ("total_amount", Float64);
    ("congestion_surcharge", Float64); ("Airport_fee", Float64) ]%string.

(** A 15 minute, 3 mile trip picked up in zone [pu] on 2024-01-01. *)
Definition raw_row (pu : Z) : gmap string value :=
  list_to_map [
    ("VendorID", VInt 1); ("tpep_pickup_datetime", VInt 1704103200000000);
    ("tpep_dropoff_datetime", VInt 1704104100000000); ("passenger_count", VInt 1);
    ("trip_distance", VFloat 3); ("RatecodeID", VInt 1); ("store_and_fwd_flag", VStr "N");
    ("PULocationID", VInt pu); ("DOLocationID", VInt 48); ("payment_type", VInt 1);
    ("fare_amount", VFloat 10); ("extra", VFloat 0); ("mta_tax", VFloat 0.5);
    ("tip_amount", VFloat 2); ("tolls_amount", VFloat 0);
    ("improvement_surcharge", VFloat 1); ("total_amount", VFloat 13.5);
    ("congestion_surcharge", VFloat 0); ("Airport_fee", VFloat 0) ]%string.

Definition file_of (pus : list Z) : DataFrame :=
  {| schema := raw_schema; rows := raw_row <$> pus |}.

Definition january : string := "yellow_tripdata_2024-01.parquet".

(** One file of two identical records. *)
Definition fs_pair : FS :=
  {| raw_dir := [(january, file_of [132; 132])]; bronze_out := None |}.

(** One file of 100 records: zones 1 to 97 once each, and zones 1, 2 and 3 a
    second time (3 exact-duplicate pairs). *)
Definition fs_hundred : FS :=
  {| raw_dir := [(january, file_of (Z.of_nat <$> seq 1 97 ++ [1%nat; 2%nat; 3%nat]))];
     bronze_out := None |}.

(** One file of a single record. *)
Definition fs_single : FS :=
  {| raw_dir := [(january, file_of [132])]; bronze_out := None |}.

End Example.

(** C10 at the file of two identical records and a third one. *)
Lemma C10_written_rows_not_duplicate_witness :
  exists a,
    bronze_out (build_bronze
      {| raw_dir := [(Example.january, Example.file_of [132; 7; 132])];
         bronze_out := None |}).1 = Some a
    /\ length (pq_rows a) = 1%nat
    /\ Forall (fun r => Contract.qa_is_duplicate_in_file r = Some false) (pq_rows a).
Proof.
  eexists. split; [vm_compute; reflexivity|]. split; [reflexivity|].
  refine (proj2 (C10_written_rows_not_duplicate
    {| raw_dir := [(Example.january, Example.file_of [132; 7; 132])];
       bronze_out := None |} _ _ _)).
  - vm_compute. discriminate.
  - vm_compute. reflexivity.
Defined.

(** C1: the rows of a duplicated key are all marked and dropped, the first
    occurrence included: a file of two identical records writes no row, and a
    file of 100 records with 3 exact-duplicate pairs writes 94 rows. *)
Theorem C1_duplicate_groups_dropped_whole :
  (forall (df : list Keyed) (k : Keyed),
     (2 <= occurrences (dup_key <$> df) (dup_key k))%nat ->
     forall kf, kf ∈ (dedup_in_file df).1 -> dup_key kf.1 <> dup_key k)
  /\ (build_bronze Example.fs_pair).2
     = Ok {| total_in := 2; total_written := 0; total_dups := 2 |}
  /\ (build_bronze Example.fs_hundred).2
     = Ok {| total_in := 100; total_written := 94; total_dups := 6 |}.
Proof.
  split; [|split].
  - intros df k Hk kf Hkf%dedup_in_file_drops_group E. rewrite E in Hkf. lia.
  - vm_compute. reflexivity.
  - vm_compute. reflexivity.
Qed.

Ltac decide_compute := apply (bool_decide_unpack _); vm_compute; exact I.

(** C4: a file without the monetary column [cbd_congestion_fee] gets that
    column as all-null in the Bronze artifact: [canonicalize] has already
    added it as a null column when [ensure_money_columns], which would have
    filled it with 0.0, looks for it. *)
Theorem C4_absent_money_column_written_null :
  let df := Example.file_of [132] in
  ("cbd_congestion_fee"%string ∈ MONEY_COLS)
  /\ ("cbd_congestion_fee"%string ∉ columns df)
  /\ (exists a, bronze_out (build_bronze Example.fs_single).1 = Some a
                /\ Contract.cbd_congestion_fee <$> pq_rows a = [None]
                /\ Contract.tolls_amount <$> pq_rows a = [Some 0%float])
  /\ (exists out, Common.canonicalize df = Ok out
                  /\ ("cbd_congestion_fee"%string ∈ columns out)
                  /\ (fun r : gmap string value => r !! "cbd_congestion_fee"%string) <$> rows out = [None]
                  /\ ensure_money_columns out = out)
  /\ (fun r : gmap string value => r !! "cbd_congestion_fee"%string)
       <$> rows (ensure_money_columns df) = [Some (VFloat 0)].
Proof.
  cbn zeta. split; [|split; [|split; [|split]]].
  - decide_compute.
  - decide_compute.
  - eexists. split; [vm_compute; reflexivity|]. split; reflexivity.
  - eexists. split; [vm_compute; reflexivity|].
    split; [decide_compute|]. split; [reflexivity|].
    vm_compute. reflexivity.
  - vm_compute. reflexivity.
Qed.

